(** * ObsidiDraw: the Freehand Notes plugin

    A shallow embedding of the plugin class [FreehandNotesPlugin] and of
    its settings tab.  The repository holds two variants of the plugin: a
    JavaScript one that also persists the drawing ([saveDrawing],
    [loadDrawing], the "Clear Drawing" button) and a TypeScript one whose
    settings tab edits the settings.  [loadSettings], [saveSettings],
    [createToolbar], [startDrawing], [draw] and [stopDrawing] are the same
    text in both.

    The plugin object is a record of its fields; the host application and
    the browser are the record [Host] (plugin storage, console, notices,
    images being decoded).  Methods are computations in a state and
    exception monad; event handlers are the cases of [handle]. *)

From stdpp Require Import gmap strings list fin_maps.
From Stdlib Require Import ZArith Ascii.

Local Open Scope Z_scope.

(** ** JavaScript values and objects *)

(** The primitive values the plugin stores in its settings and in the
    persisted record.  Numbers are integers here (pen widths, sizes,
    epoch milliseconds); [VNaN] is what [parseInt] gives on a string with
    no digits. *)
Inductive JsVal :=
  | VUndefined
  | VNull
  | VBool (b : bool)
  | VNum (n : Z)
  | VNaN
  | VStr (s : string).

Global Instance JsVal_eq_dec : EqDecision JsVal.
Proof. solve_decision. Defined.

(** ToBoolean, as used by [if (savedData && savedData.drawing)]. *)
Definition truthy (v : JsVal) : bool :=
  match v with
  | VUndefined | VNull | VNaN => false
  | VBool b => b
  | VNum n => negb (n =? 0)
  | VStr s => negb (String.eqb s "")
  end.

(** A plain object with string keys: the settings object and the
    persisted record. *)
Abbreviation JsObject := (gmap string JsVal).

(** Property read [o.k]: [undefined] when the object has no such key. *)
Definition get (o : JsObject) (k : string) : JsVal :=
  default VUndefined (o !! k).

(** [Object.assign(target, ...sources)]: every own property of each source
    is copied onto the target, later sources overwriting earlier ones;
    a [null] source is skipped. *)
Definition Object_assign (target : JsObject) (sources : list (option JsObject))
  : JsObject :=
  foldl (λ acc src, match src with
                    | Some o => o ∪ acc
                    | None => acc
                    end) target sources.

Definition DEFAULT_SETTINGS : JsObject :=
  {[ "penColor" := VStr "#000000";
     "penWidth" := VNum 2;
     "eraserSize" := VNum 10;
     "showToolbar" := VBool true ]}.

(** [parseInt(s)] with no radix: leading white space is skipped, then an
    optional sign, then either [0x] and hexadecimal digits or decimal
    digits; the longest digit prefix is read and [NaN] is returned when
    there is none.  The result is exact (no rounding to a double). *)
Definition is_space (a : ascii) : bool :=
  let n := nat_of_ascii a in
  ((9 <=? n) && (n <=? 13))%nat || (n =? 32)%nat.

Fixpoint skip_spaces (s : string) : string :=
  match s with
  | String a s' => if is_space a then skip_spaces s' else s
  | EmptyString => s
  end.

Definition digit_of (radix : Z) (a : ascii) : option Z :=
  let n := Z.of_nat (nat_of_ascii a) in
  let d := if (48 <=? n) && (n <=? 57) then Some (n - 48)
           else if (97 <=? n) && (n <=? 122) then Some (n - 87)
           else if (65 <=? n) && (n <=? 90) then Some (n - 55)
           else None in
  match d with
  | Some v => if v <? radix then Some v else None
  | None => None
  end.

Fixpoint read_digits (radix : Z) (acc : option Z) (s : string) : option Z :=
  match s with
  | String a s' =>
      match digit_of radix a with
      | Some d => read_digits radix (Some (default 0 acc * radix + d)) s'
      | None => acc
      end
  | EmptyString => acc
  end.

Definition parseInt (s : string) : JsVal :=
  let s1 := skip_spaces s in
  let '(sign, s2) :=
    match s1 with
    | String "-"%char r => (-1, r)
    | String "+"%char r => (1, r)
    | _ => (1, s1)
    end in
  let '(radix, s3) :=
    match s2 with
    | String "0"%char (String "x"%char r) | String "0"%char (String "X"%char r) => (16, r)
    | _ => (10, s2)
    end in
  match read_digits radix None s3 with
  | Some n => VNum (sign * n)
  | None => VNaN
  end.

(** ** The 2D canvas *)

Definition Point : Type := Z * Z.

(** The drawing state of a [CanvasRenderingContext2D]: the properties the
    plugin assigns, and the current path as its list of subpaths, each a
    list of points in the order they were added.  A property holds the
    value last assigned to it, as written; the browser's own checks on
    colour strings and widths are not represented. *)
Record Ctx := mkCtx {
  strokeStyle : JsVal;
  lineWidth : JsVal;
  lineCap : string;
  lineJoin : string;
  globalCompositeOperation : string;
  path : list (list Point)
}.

(** What has been painted on the canvas, as the painting calls made on its
    context in order.  A [Stroke] keeps the path that was stroked and the
    drawing state it was stroked with; turning a stroked path into pixels
    is left to the browser. *)
Inductive CanvasOp :=
  | Stroke (p : list (list Point)) (style width : JsVal) (cap join : string)
           (composite : string)
  | ClearRect (x y w h : Z)
  | DrawImage (src : JsVal) (x y : Z).

Record Canvas := mkCanvas {
  width : Z;
  height : Z;
  painted : list CanvasOp
}.

(** A context as [getContext('2d')] returns it. *)
Definition fresh_ctx : Ctx :=
  {| strokeStyle := VStr "#000000"; lineWidth := VNum 1;
     lineCap := "butt"; lineJoin := "miter";
     globalCompositeOperation := "source-over"; path := [] |}.

(** ** The host *)

Inductive JsError :=
  | HostError (msg : string)
  | ReferenceError (name : string).

(** Plugin storage ([loadData] / [saveData]), the console, the notices
    shown to the user and the images whose decoding has been started.
    [saveCalls] lists the argument of every [saveData] call, the latest
    last. *)
Record Host := mkHost {
  storage : option JsObject;
  saveCalls : list (option JsObject);
  consoleErrors : list (string * JsError);
  notices : list string;
  imageLoads : list JsVal
}.

(** What the running environment provides and the plugin file does not
    define: the encoder behind [canvas.toDataURL()], and whether the
    global scope binds the name [Obsidian].  The JavaScript file takes
    [Plugin], [PluginSettingTab] and [Setting] from [require('obsidian')]
    and declares no [Obsidian] itself, so [new Obsidian.Notice(...)]
    resolves that name in the global scope. *)
Record Runtime := mkRuntime {
  toDataURL : Canvas → string;
  global_Obsidian : bool
}.

(** ** The plugin object *)

Inductive Tool := pen | eraser | select.

Record Plugin := mkPlugin {
  settings : JsObject;
  canvas : Canvas;
  ctx : Ctx;
  isDrawing : bool;
  currentTool : option Tool;
  host : Host
}.

Definition set_settings (s : JsObject) (p : Plugin) : Plugin :=
  {| settings := s; canvas := canvas p; ctx := ctx p;
     isDrawing := isDrawing p; currentTool := currentTool p; host := host p |}.

Definition set_canvas (c : Canvas) (p : Plugin) : Plugin :=
  {| settings := settings p; canvas := c; ctx := ctx p;
     isDrawing := isDrawing p; currentTool := currentTool p; host := host p |}.

Definition set_ctx (c : Ctx) (p : Plugin) : Plugin :=
  {| settings := settings p; canvas := canvas p; ctx := c;
     isDrawing := isDrawing p; currentTool := currentTool p; host := host p |}.

Definition set_isDrawing (b : bool) (p : Plugin) : Plugin :=
  {| settings := settings p; canvas := canvas p; ctx := ctx p;
     isDrawing := b; currentTool := currentTool p; host := host p |}.

Definition set_currentTool (t : Tool) (p : Plugin) : Plugin :=
  {| settings := settings p; canvas := canvas p; ctx := ctx p;
     isDrawing := isDrawing p; currentTool := Some t; host := host p |}.

Definition set_host (h : Host) (p : Plugin) : Plugin :=
  {| settings := settings p; canvas := canvas p; ctx := ctx p;
     isDrawing := isDrawing p; currentTool := currentTool p; host := h |}.

(** ** Methods as computations *)

(** A method either completes normally or throws; the plugin object keeps
    whatever was written before the throw. *)
Inductive Completion (A : Type) :=
  | Normal (a : A)
  | Throw (e : JsError).
Arguments Normal {A} a.
Arguments Throw {A} e.

Definition M (A : Type) : Type := Plugin → Completion A * Plugin.

Global Instance M_ret : MRet M := λ A a st, (Normal a, st).

Global Instance M_bind : MBind M := λ A B f m st,
  match m st with
  | (Normal a, st') => f a st'
  | (Throw e, st') => (Throw e, st')
  end.

Definition throw {A} (e : JsError) : M A := λ st, (Throw e, st).

(** [try { body } catch (error) { handler }] *)
Definition try_catch {A} (body : M A) (handler : JsError → M A) : M A :=
  λ st, match body st with
        | (Normal a, st') => (Normal a, st')
        | (Throw e, st') => handler e st'
        end.

Definition gets {A} (f : Plugin → A) : M A := λ st, (Normal (f st), st).
Definition modify (f : Plugin → Plugin) : M unit := λ st, (Normal (), f st).

Definition exec {A} (m : M A) (st : Plugin) : Plugin := (m st).2.
Definition outcome {A} (m : M A) (st : Plugin) : Completion A := (m st).1.

(** *** Host calls

    Modelled from the spec: the host persistence contract of section 6,
    [loadData(): promise<record|null>] and [saveData(record):
    promise<void>], an opaque blob store scoped to the plugin.  A call
    either resolves, and then [saveData] replaces the stored record and
    [loadData] returns it, or rejects with an error; which one is the
    host's choice, given by [fault]. *)
Definition loadData (fault : option JsError) : M (option JsObject) :=
  match fault with
  | Some e => throw e
  | None => gets (λ st, storage (host st))
  end.

Definition saveData (data : option JsObject) (fault : option JsError) : M unit :=
  modify (λ st, set_host {| storage := storage (host st);
                            saveCalls := saveCalls (host st) ++ [data];
                            consoleErrors := consoleErrors (host st);
                            notices := notices (host st);
                            imageLoads := imageLoads (host st) |} st) ;;
  match fault with
  | Some e => throw e
  | None =>
      modify (λ st, set_host {| storage := data;
                                saveCalls := saveCalls (host st);
                                consoleErrors := consoleErrors (host st);
                                notices := notices (host st);
                                imageLoads := imageLoads (host st) |} st)
  end.

(** [console.error(msg, error)] *)
Definition console_error (msg : string) (e : JsError) : M unit :=
  modify (λ st, set_host {| storage := storage (host st);
                            saveCalls := saveCalls (host st);
                            consoleErrors := consoleErrors (host st) ++ [(msg, e)];
                            notices := notices (host st);
                            imageLoads := imageLoads (host st) |} st).

(** [new Obsidian.Notice(msg)]: the name [Obsidian] is looked up first. *)
Definition new_Notice (rt : Runtime) (msg : string) : M unit :=
  if global_Obsidian rt then
    modify (λ st, set_host {| storage := storage (host st);
                              saveCalls := saveCalls (host st);
                              consoleErrors := consoleErrors (host st);
                              notices := notices (host st) ++ [msg];
                              imageLoads := imageLoads (host st) |} st)
  else throw (ReferenceError "Obsidian").

(** *** Settings *)

Definition loadSettings (fault : option JsError) : M unit :=
  data ← loadData fault;
  modify (set_settings (Object_assign ∅ [Some DEFAULT_SETTINGS; data])).

Definition saveSettings (fault : option JsError) : M unit :=
  s ← gets settings;
  saveData (Some s) fault.

(** *** The context's methods *)

Definition set_strokeStyle (v : JsVal) (c : Ctx) : Ctx :=
  {| strokeStyle := v; lineWidth := lineWidth c; lineCap := lineCap c;
     lineJoin := lineJoin c;
     globalCompositeOperation := globalCompositeOperation c; path := path c |}.

Definition set_lineWidth (v : JsVal) (c : Ctx) : Ctx :=
  {| strokeStyle := strokeStyle c; lineWidth := v; lineCap := lineCap c;
     lineJoin := lineJoin c;
     globalCompositeOperation := globalCompositeOperation c; path := path c |}.

Definition set_lineCap (v : string) (c : Ctx) : Ctx :=
  {| strokeStyle := strokeStyle c; lineWidth := lineWidth c; lineCap := v;
     lineJoin := lineJoin c;
     globalCompositeOperation := globalCompositeOperation c; path := path c |}.

Definition set_lineJoin (v : string) (c : Ctx) : Ctx :=
  {| strokeStyle := strokeStyle c; lineWidth := lineWidth c;
     lineCap := lineCap c; lineJoin := v;
     globalCompositeOperation := globalCompositeOperation c; path := path c |}.

Definition set_globalCompositeOperation (v : string) (c : Ctx) : Ctx :=
  {| strokeStyle := strokeStyle c; lineWidth := lineWidth c;
     lineCap := lineCap c; lineJoin := lineJoin c;
     globalCompositeOperation := v; path := path c |}.

Definition set_path (p : list (list Point)) (c : Ctx) : Ctx :=
  {| strokeStyle := strokeStyle c; lineWidth := lineWidth c;
     lineCap := lineCap c; lineJoin := lineJoin c;
     globalCompositeOperation := globalCompositeOperation c; path := p |}.

(** [beginPath()] empties the list of subpaths. *)
Definition beginPath (c : Ctx) : Ctx := set_path [] c.

(** [moveTo(x, y)] starts a new subpath holding that one point. *)
Definition moveTo (pt : Point) (c : Ctx) : Ctx := set_path (path c ++ [[pt]]) c.

(** [lineTo(x, y)]: with no subpath yet the point starts one (and no line
    is added); otherwise the point is added to the last subpath, joined
    to that subpath's last point by a line. *)
Fixpoint add_point (pt : Point) (subpaths : list (list Point))
  : list (list Point) :=
  match subpaths with
  | [] => [[pt]]
  | [s] => [s ++ [pt]]
  | s :: rest => s :: add_point pt rest
  end.

Definition lineTo (pt : Point) (c : Ctx) : Ctx := set_path (add_point pt (path c)) c.

Definition paint (op : CanvasOp) (cv : Canvas) : Canvas :=
  {| width := width cv; height := height cv; painted := painted cv ++ [op] |}.

(** [stroke()] paints the current path with the current drawing state and
    keeps the path. *)
Definition stroke (st : Plugin) : Plugin :=
  let c := ctx st in
  set_canvas (paint (Stroke (path c) (strokeStyle c) (lineWidth c) (lineCap c)
                            (lineJoin c) (globalCompositeOperation c))
                    (canvas st)) st.

Definition clearRect (x y w h : Z) (st : Plugin) : Plugin :=
  set_canvas (paint (ClearRect x y w h) (canvas st)) st.

Definition drawImage (img : JsVal) (x y : Z) (st : Plugin) : Plugin :=
  set_canvas (paint (DrawImage img x y) (canvas st)) st.

Definition on_ctx (f : Ctx → Ctx) : M unit := modify (λ st, set_ctx (f (ctx st)) st).

(** The line segments of a path: each subpath joins its consecutive
    points. *)
Fixpoint subpath_segments (s : list Point) : list (Point * Point) :=
  match s with
  | a :: (b :: _) as rest => (a, b) :: subpath_segments rest
  | _ => []
  end.

Definition segments (p : list (list Point)) : list (Point * Point) :=
  concat (subpath_segments <$> p).

(** *** Drawing *)

Definition draw (e : Point) : M unit :=
  drawing ← gets isDrawing;
  if negb drawing then mret () else
  penColor ← gets (λ st, get (settings st) "penColor");
  on_ctx (set_strokeStyle penColor) ;;
  penWidth ← gets (λ st, get (settings st) "penWidth");
  on_ctx (set_lineWidth penWidth) ;;
  on_ctx (set_lineCap "round") ;;
  on_ctx (set_lineJoin "round") ;;
  on_ctx (lineTo e) ;;
  modify stroke ;;
  on_ctx beginPath ;;
  on_ctx (moveTo e).

Definition startDrawing (e : Point) : M unit :=
  modify (set_isDrawing true) ;;
  draw e.

Definition stopDrawing : M unit :=
  modify (set_isDrawing false) ;;
  on_ctx beginPath.

(** *** Saving and loading the drawing (JavaScript variant) *)

Definition saveDrawing (rt : Runtime) (now : Z) (fault : option JsError) : M unit :=
  try_catch
    (imageData ← gets (λ st, toDataURL rt (canvas st));
     saveData (Some {[ "drawing" := VStr imageData;
                       "timestamp" := VNum now ]}) fault ;;
     new_Notice rt "Drawing saved successfully!")
    (λ error,
     console_error "Failed to save drawing:" error ;;
     new_Notice rt "Failed to save drawing").

(** [img.src = v] starts decoding the image; its [onload] handler runs
    later, if ever (see [img_onload] below). *)
Definition start_image_load (src : JsVal) : M unit :=
  modify (λ st, set_host {| storage := storage (host st);
                            saveCalls := saveCalls (host st);
                            consoleErrors := consoleErrors (host st);
                            notices := notices (host st);
                            imageLoads := imageLoads (host st) ++ [src] |} st).

Definition loadDrawing (fault : option JsError) : M unit :=
  try_catch
    (savedData ← loadData fault;
     match savedData with
     | Some o =>
         if truthy (get o "drawing")
         then start_image_load (get o "drawing")
         else mret ()
     | None => mret ()
     end)
    (λ error, console_error "Failed to load drawing:" error).

(** The first part of [initializeDrawingCanvas]: a new canvas of the
    window's size, its 2D context, and the saved drawing.  What follows
    in the method builds the toolbar and the buttons and registers the
    handlers, which are the events of [handle]. *)
Definition initializeDrawingCanvas (innerWidth innerHeight : Z)
    (fault : option JsError) : M unit :=
  modify (set_canvas {| width := innerWidth; height := innerHeight;
                        painted := [] |}) ;;
  modify (set_ctx fresh_ctx) ;;
  loadDrawing fault.

(** The "Clear Drawing" button of the settings tab. *)
Definition clearDrawing_onClick (rt : Runtime) (fault : option JsError) : M unit :=
  saveData None fault ;;
  new_Notice rt "Saved drawing has been cleared".

(** *** The settings tab of the TypeScript variant *)

Definition penColor_onChange (value : string) (fault : option JsError) : M unit :=
  modify (λ st, set_settings (<["penColor" := VStr value]> (settings st)) st) ;;
  saveSettings fault.

Definition penWidth_onChange (value : Z) (fault : option JsError) : M unit :=
  modify (λ st, set_settings (<["penWidth" := VNum value]> (settings st)) st) ;;
  saveSettings fault.

Definition showToolbar_onChange (value : bool) (fault : option JsError) : M unit :=
  modify (λ st, set_settings (<["showToolbar" := VBool value]> (settings st)) st) ;;
  saveSettings fault.

(** *** Events of the mounted overlay

    The listeners registered by [initializeDrawingCanvas] and
    [createToolbar], and the [onload] handler that [loadDrawing] puts on
    its image. *)
Inductive Event :=
  | mousedown (e : Point)
  | mousemove (e : Point)
  | mouseup
  | mouseout
  | penButton_click
  | eraserButton_click
  | colorPicker_change (value : string)
  | penWidthSlider_input (value : string)
  | img_onload.

Definition handle (ev : Event) : M unit :=
  match ev with
  | mousedown e => startDrawing e
  | mousemove e => draw e
  | mouseup | mouseout => stopDrawing
  | penButton_click =>
      modify (set_currentTool pen) ;;
      on_ctx (set_globalCompositeOperation "source-over")
  | eraserButton_click =>
      modify (set_currentTool eraser) ;;
      on_ctx (set_globalCompositeOperation "destination-out")
  | colorPicker_change value =>
      modify (λ st, set_settings (<["penColor" := VStr value]> (settings st)) st)
  | penWidthSlider_input value =>
      modify (λ st, set_settings (<["penWidth" := parseInt value]> (settings st)) st)
  | img_onload =>
      pending ← gets (λ st, imageLoads (host st));
      match pending with
      | [] => mret ()
      | img :: rest =>
          modify (λ st, set_host {| storage := storage (host st);
                                    saveCalls := saveCalls (host st);
                                    consoleErrors := consoleErrors (host st);
                                    notices := notices (host st);
                                    imageLoads := rest |} st) ;;
          w ← gets (λ st, width (canvas st));
          h ← gets (λ st, height (canvas st));
          modify (clearRect 0 0 w h) ;;
          modify (drawImage img 0 0)
      end
  end.

Fixpoint run (evs : list Event) : M unit :=
  match evs with
  | [] => mret ()
  | ev :: rest => handle ev ;; run rest
  end.

(** A plugin object before [onload]: no settings loaded, nothing drawn. *)
Definition new_plugin (h : Host) : Plugin :=
  {| settings := ∅; canvas := {| width := 0; height := 0; painted := [] |};
     ctx := fresh_ctx; isDrawing := false; currentTool := None; host := h |}.

Definition empty_host : Host :=
  {| storage := None; saveCalls := []; consoleErrors := []; notices := [];
     imageLoads := [] |}.

(** *** Notions used in the statements *)

(** The line segments a painting call draws. *)
Definition stroke_segments (op : CanvasOp) : list (Point * Point) :=
  match op with
  | Stroke p _ _ _ _ _ => segments p
  | _ => []
  end.

(** The stroke that [draw] paints in a given state of the plugin. *)
Definition stroke_of (st : Plugin) (p : list (list Point)) : CanvasOp :=
  Stroke p (get (settings st) "penColor") (get (settings st) "penWidth")
         "round" "round" (globalCompositeOperation (ctx st)).

(** The record [saveDrawing] hands to [saveData]. *)
Definition snapshot (rt : Runtime) (cv : Canvas) (now : Z) : JsObject :=
  {[ "drawing" := VStr (toDataURL rt cv); "timestamp" := VNum now ]}.

(** The persisted record is [null] or has no [drawing] field. *)
Definition no_drawing_field (data : option JsObject) : Prop :=
  match data with
  | None => True
  | Some record => record !! "drawing" = None
  end.

(** Two plugin states that differ at most in the [eraserSize] setting. *)
Definition same_but_eraserSize (a b : Plugin) : Prop :=
  delete "eraserSize" (settings a) = delete "eraserSize" (settings b)
  ∧ canvas a = canvas b ∧ ctx a = ctx b ∧ isDrawing a = isDrawing b
  ∧ currentTool a = currentTool b ∧ host a = host b.

(** A host whose plugin storage holds [data]. *)
Definition host_storing (data : option JsObject) : Host :=
  {| storage := data; saveCalls := []; consoleErrors := []; notices := [];
     imageLoads := [] |}.

(** A plugin after [onload] on first run, its overlay mounted on a
    window of 800 by 600. *)
Definition mounted_overlay : Plugin :=
  {| settings := DEFAULT_SETTINGS;
     canvas := {| width := 800; height := 600; painted := [] |};
     ctx := fresh_ctx; isDrawing := false; currentTool := None;
     host := empty_host |}.

(** A runtime whose encoder gives every canvas the same data URL. *)
Definition runtime_with (obsidian : bool) : Runtime :=
  {| toDataURL := λ _, "data:image/png;base64,AAAA";
     global_Obsidian := obsidian |}.

(** The path as the drawing handlers leave it: empty while idle, the last
    pointer position alone while a stroke is in progress. *)
Definition path_reset (st : Plugin) : bool :=
  match isDrawing st, path (ctx st) with
  | false, [] => true
  | true, [[_]] => true
  | _, _ => false
  end.

(** A painting call that is not a stroke, or that strokes one subpath of
    one or two points. *)
Definition single_segment (op : CanvasOp) : bool :=
  match op with
  | Stroke [[_]] _ _ _ _ _ | Stroke [[_; _]] _ _ _ _ _ => true
  | Stroke _ _ _ _ _ _ => false
  | ClearRect _ _ _ _ | DrawImage _ _ _ => true
  end.

(** The compositing mode a stroke was painted with. *)
Definition composited_with (mode : string) (op : CanvasOp) : bool :=
  match op with
  | Stroke _ _ _ _ _ composite => String.eqb composite mode
  | ClearRect _ _ _ _ | DrawImage _ _ _ => true
  end.

Definition is_mousedown (ev : Event) : bool :=
  match ev with mousedown _ => true | _ => false end.

Definition is_img_onload (ev : Event) : bool :=
  match ev with img_onload => true | _ => false end.

Definition is_tool_button (ev : Event) : bool :=
  match ev with penButton_click | eraserButton_click => true | _ => false end.

(** The values [if (savedData.drawing)] takes for false. *)
Definition falsy_values : list JsVal :=
  [VUndefined; VNull; VBool false; VNum 0; VNaN; VStr ""].

(** The plugin object of the next session: what the host holds is kept,
    the fields of the object are new. *)
Definition restart (st : Plugin) : Plugin := new_plugin (host st).

(** The strokes of a polyline: one segment from each point to the next,
    starting at [last], each painted as [draw] paints in state [st]. *)
Fixpoint polyline (st : Plugin) (last : Point) (pts : list Point)
  : list CanvasOp :=
  match pts with
  | [] => []
  | p :: rest => stroke_of st [[last; p]] :: polyline st p rest
  end.

(** * Properties *)

(** Unfolds a method down to the state it computes. *)
Ltac step_method :=
  cbv [exec outcome loadSettings saveSettings loadData saveData gets modify
       throw try_catch mbind M_bind mret M_ret console_error new_Notice
       start_image_load on_ctx];
  cbn [fst snd settings canvas ctx isDrawing currentTool host storage
       saveCalls consoleErrors notices imageLoads set_settings set_host
       set_canvas set_ctx set_isDrawing set_currentTool].

(** Splits a goal [same_but_eraserSize _ _] and closes the fields that
    hold by assumption. *)
Ltac same_split :=
  unfold same_but_eraserSize;
  cbn [settings canvas ctx isDrawing currentTool host set_settings set_host
       set_canvas set_ctx set_isDrawing set_currentTool];
  repeat match goal with |- _ ∧ _ => split end;
  try (reflexivity || assumption || congruence).

(** ** Settings store *)

Section ObjectAssign.
Implicit Types (o defaults persisted : JsObject) (k : string).

Lemma Object_assign_null defaults :
  Object_assign ∅ [Some defaults; None] = defaults.
Proof. cbn. apply (right_id_L ∅ (∪)). Qed.

Lemma Object_assign_lookup defaults persisted k :
  Object_assign ∅ [Some defaults; Some persisted] !! k
  = match persisted !! k with
    | Some v => Some v
    | None => defaults !! k
    end.
Proof.
  cbn. rewrite (right_id_L ∅ (∪)), lookup_union.
  destruct (persisted !! k), (defaults !! k); reflexivity.
Qed.

Lemma Object_assign_dom defaults persisted :
  dom persisted ⊆ dom defaults →
  dom (Object_assign ∅ [Some defaults; Some persisted]) = dom defaults.
Proof.
  intros Hsub. cbn. rewrite (right_id_L ∅ (∪)), dom_union_L.
  by apply subseteq_union_1_L.
Qed.

Lemma Object_assign_full defaults o :
  dom defaults ⊆ dom o →
  Object_assign ∅ [Some defaults; Some o] = o.
Proof.
  intros Hsub. apply map_eq; intros k. rewrite Object_assign_lookup.
  destruct (o !! k) eqn:Hk; [reflexivity|].
  apply not_elem_of_dom. apply not_elem_of_dom in Hk. set_solver.
Qed.
End ObjectAssign.

Lemma loadSettings_settings st :
  settings (exec (loadSettings None) st)
  = Object_assign ∅ [Some DEFAULT_SETTINGS; storage (host st)].
Proof. reflexivity. Qed.

Lemma saveSettings_storage st :
  storage (host (exec (saveSettings None) st)) = Some (settings st).
Proof. reflexivity. Qed.

(** C1.  [loadSettings] merges the persisted record over the defaults.
    When the persisted record's keys are among the defaults' keys, the
    loaded settings have exactly the defaults' keys; a key of the persisted
    record has the persisted value and any other key has its default.
    When nothing is persisted ([loadData] gives [null]) the loaded settings
    are the defaults. *)
Theorem loadSettings_merges_over_defaults (st : Plugin) :
  (storage (host st) = None →
   settings (exec (loadSettings None) st) = DEFAULT_SETTINGS)
  ∧ (∀ partial : JsObject,
       storage (host st) = Some partial →
       dom partial ⊆ dom DEFAULT_SETTINGS →
       let s := settings (exec (loadSettings None) st) in
       dom s = dom DEFAULT_SETTINGS
       ∧ (∀ k v, partial !! k = Some v → s !! k = Some v)
       ∧ (∀ k, partial !! k = None → s !! k = DEFAULT_SETTINGS !! k)).
Proof.
  split.
  - intros Hnull. rewrite loadSettings_settings, Hnull.
    apply Object_assign_null.
  - intros partial Hsome Hkeys s. subst s.
    rewrite loadSettings_settings, Hsome. split; [|split].
    + by apply Object_assign_dom.
    + intros k v Hk. by rewrite Object_assign_lookup, Hk.
    + intros k Hk. by rewrite Object_assign_lookup, Hk.
Qed.

(** C2.  Settings round trip: after [saveSettings] on settings that have
    all four fields, [loadSettings] on another plugin instance whose
    storage holds what was saved gives back the same settings, field by
    field. *)
Theorem settings_round_trip (st fresh : Plugin) :
  dom DEFAULT_SETTINGS ⊆ dom (settings st) →
  storage (host fresh) = storage (host (exec (saveSettings None) st)) →
  outcome (saveSettings None) st = Normal ()
  ∧ outcome (loadSettings None) fresh = Normal ()
  ∧ settings (exec (loadSettings None) fresh) = settings st
  ∧ ∀ k, get (settings (exec (loadSettings None) fresh)) k = get (settings st) k.
Proof.
  intros Hfields Hstored.
  assert (settings (exec (loadSettings None) fresh) = settings st) as Heq.
  { rewrite loadSettings_settings, Hstored, saveSettings_storage.
    by apply Object_assign_full. }
  split; [reflexivity|]. split; [reflexivity|]. split; [exact Heq|].
  intros k. by rewrite Heq.
Qed.

(** ** Stroke rendering *)

Lemma draw_idle st e : isDrawing st = false → exec (draw e) st = st.
Proof.
  intros Hidle. destruct st as [s cv c d t h]. cbn in Hidle. subst d.
  reflexivity.
Qed.

Lemma draw_active st e :
  isDrawing st = true →
  exec (draw e) st
  = {| settings := settings st;
       canvas := paint (stroke_of st (add_point e (path (ctx st)))) (canvas st);
       ctx := {| strokeStyle := get (settings st) "penColor";
                 lineWidth := get (settings st) "penWidth";
                 lineCap := "round"; lineJoin := "round";
                 globalCompositeOperation := globalCompositeOperation (ctx st);
                 path := [[e]] |};
       isDrawing := true; currentTool := currentTool st; host := host st |}.
Proof.
  intros Hactive. destruct st as [s cv c d t h]. cbn in Hactive. subst d.
  reflexivity.
Qed.

Lemma startDrawing_eq st e :
  exec (startDrawing e) st = exec (draw e) (set_isDrawing true st).
Proof. reflexivity. Qed.

Lemma run_cons ev evs st :
  exec (run (ev :: evs)) st = exec (run evs) (exec (handle ev) st).
Proof.
  cbn [run]. unfold exec, mbind, M_bind.
  destruct (handle ev st) as [[[]|err] st'] eqn:Hev; cbn [snd]; [reflexivity|].
  (* no handler throws *)
  exfalso. revert Hev. destruct ev; cbn [handle]; unfold startDrawing, draw, stopDrawing;
    step_method; repeat (match goal with
                         | |- context [if ?b then _ else _] => destruct b
                         | |- context [match ?l with [] => _ | _ :: _ => _ end] => destruct l
                         end; step_method); discriminate.
Qed.

Lemma run_nil st : exec (run []) st = st.
Proof. reflexivity. Qed.

(** C3.  A pointer-down at (10,10) followed by a pointer-up, on an overlay
    whose path is empty, paints exactly one thing: a stroke of the path
    made of the single point (10,10), a mark with no extent, in the pen
    colour and pen width of the settings and with round caps; afterwards
    [isDrawing] is false and the path is empty again. *)
Theorem click_paints_a_dot (st : Plugin) :
  path (ctx st) = [] →
  let st' := exec (run [mousedown (10, 10); mouseup]) st in
  painted (canvas st') = painted (canvas st) ++ [stroke_of st [[(10, 10)]]]
  ∧ stroke_segments (stroke_of st [[(10, 10)]]) = []
  ∧ isDrawing st' = false
  ∧ path (ctx st') = [].
Proof.
  intros Hempty st'. subst st'.
  rewrite !run_cons, run_nil. cbn [handle].
  rewrite startDrawing_eq, draw_active by reflexivity.
  cbn. rewrite Hempty. auto.
Qed.

(** One move while drawing: the new point is joined to the point left by
    the previous call, that one segment is stroked with the settings as
    they are now, and the path is reset to the new point alone. *)
Lemma draw_one_segment st last e :
  isDrawing st = true →
  path (ctx st) = [[last]] →
  painted (canvas (exec (draw e) st))
  = painted (canvas st) ++ [stroke_of st [[last; e]]]
  ∧ path (ctx (exec (draw e) st)) = [[e]].
Proof.
  intros Hactive Hpath. rewrite draw_active by done. cbn. by rewrite Hpath.
Qed.

(** C4.  Down at (0,0), move to (50,50), move to (100,0), up.  Three
    strokes are painted, each of its own path: the point (0,0), the
    segment (0,0)-(50,50) and the segment (50,50)-(100,0); no stroke
    repeats a segment of an earlier one.  Colour and width are read from
    the settings when the segment is stroked: with a colour-picker change
    between the two moves the second segment has the new colour and the
    first keeps the old one.  In general a move while drawing strokes the
    one segment from the last point to the new point and leaves the new
    point as the whole path. *)
Theorem moves_paint_independent_segments (st : Plugin) (newColor : string) :
  path (ctx st) = [] →
  let plain :=
    exec (run [mousedown (0, 0); mousemove (50, 50); mousemove (100, 0);
               mouseup]) st in
  let recoloured :=
    exec (run [mousedown (0, 0); mousemove (50, 50);
               colorPicker_change newColor;
               mousemove (100, 0); mouseup]) st in
  let width := get (settings st) "penWidth" in
  let mode := globalCompositeOperation (ctx st) in
  painted (canvas plain)
  = painted (canvas st)
    ++ [stroke_of st [[(0, 0)]];
        stroke_of st [[(0, 0); (50, 50)]];
        stroke_of st [[(50, 50); (100, 0)]]]
  ∧ painted (canvas recoloured)
    = painted (canvas st)
      ++ [stroke_of st [[(0, 0)]];
          stroke_of st [[(0, 0); (50, 50)]];
          Stroke [[(50, 50); (100, 0)]] (VStr newColor) width
                 "round" "round" mode]
  ∧ stroke_segments <$> [stroke_of st [[(0, 0)]];
                         stroke_of st [[(0, 0); (50, 50)]];
                         stroke_of st [[(50, 50); (100, 0)]]]
    = [[]; [((0, 0), (50, 50))]; [((50, 50), (100, 0))]]
  ∧ (∀ (st0 : Plugin) (last e : Point),
       isDrawing st0 = true →
       path (ctx st0) = [[last]] →
       painted (canvas (exec (draw e) st0))
       = painted (canvas st0) ++ [stroke_of st0 [[last; e]]]
       ∧ path (ctx (exec (draw e) st0)) = [[e]]).
Proof.
  intros Hempty plain recoloured width mode.
  subst plain recoloured width mode.
  split; [|split; [|split]].
  - rewrite !run_cons, run_nil. cbn [handle].
    rewrite startDrawing_eq, !draw_active by reflexivity.
    unfold stopDrawing, stroke_of, paint. step_method.
    cbn [path painted globalCompositeOperation app]. rewrite Hempty.
    cbn [add_point app]. by rewrite <- !app_assoc.
  - rewrite !run_cons, run_nil. cbn [handle].
    rewrite startDrawing_eq, !draw_active by reflexivity.
    unfold stopDrawing, stroke_of, paint. step_method.
    cbn [path painted globalCompositeOperation app]. rewrite Hempty.
    cbn [add_point app]. rewrite <- !app_assoc.
    unfold get. by rewrite lookup_insert_eq, lookup_insert_ne.
  - reflexivity.
  - intros st0 last e. apply draw_one_segment.
Qed.

(** ** Toolbar *)

(** C9.  A colour-picker change writes [penColor] and a width-slider
    change writes [penWidth], each on the live settings and nowhere else:
    every other settings field keeps its value, and the host is left as
    it was, so [saveData] is not called and the stored record does not
    change.  Canvas, context and drawing state are untouched too. *)
Theorem toolbar_changes_only_touch_settings (st : Plugin) (value : string) :
  let picked := exec (handle (colorPicker_change value)) st in
  let slid := exec (handle (penWidthSlider_input value)) st in
  (settings picked = <["penColor" := VStr value]> (settings st)
   ∧ (∀ k, k ≠ "penColor" → settings picked !! k = settings st !! k)
   ∧ host picked = host st
   ∧ saveCalls (host picked) = saveCalls (host st)
   ∧ storage (host picked) = storage (host st)
   ∧ picked = set_settings (settings picked) st)
  ∧ (settings slid = <["penWidth" := parseInt value]> (settings st)
     ∧ (∀ k, k ≠ "penWidth" → settings slid !! k = settings st !! k)
     ∧ host slid = host st
     ∧ saveCalls (host slid) = saveCalls (host st)
     ∧ storage (host slid) = storage (host st)
     ∧ slid = set_settings (settings slid) st).
Proof.
  intros picked slid. subst picked slid. cbn [handle]. step_method.
  split; (split; [reflexivity|]); (split; [|by repeat split]);
    intros k Hk; by rewrite lookup_insert_ne.
Qed.

(** ** Pen and eraser *)

Lemma get_same_but_eraserSize (sa sb : JsObject) k :
  delete "eraserSize" sa = delete "eraserSize" sb →
  k ≠ "eraserSize" →
  get sa k = get sb k.
Proof.
  intros Hsame Hk. unfold get.
  rewrite <- (lookup_delete_ne sa "eraserSize" k) by done.
  rewrite Hsame. by rewrite lookup_delete_ne.
Qed.

Lemma insert_same_but_eraserSize (sa sb : JsObject) k v :
  delete "eraserSize" sa = delete "eraserSize" sb →
  delete "eraserSize" (<[k := v]> sa) = delete "eraserSize" (<[k := v]> sb).
Proof.
  intros Hsame. apply map_eq; intros j.
  destruct (decide (j = "eraserSize")) as [->|Hj].
  - by rewrite !lookup_delete_eq.
  - rewrite !lookup_delete_ne by done.
    destruct (decide (k = j)) as [->|Hkj].
    + by rewrite !lookup_insert_eq.
    + rewrite !lookup_insert_ne by done.
      rewrite <- (lookup_delete_ne sa "eraserSize" j) by done.
      rewrite Hsame. by rewrite lookup_delete_ne.
Qed.

Lemma draw_same_but_eraserSize a b e :
  same_but_eraserSize a b →
  same_but_eraserSize (exec (draw e) a) (exec (draw e) b).
Proof.
  intros (Hs & Hcv & Hctx & Hd & Ht & Hh).
  destruct (isDrawing b) eqn:Hb.
  - rewrite !draw_active by congruence. unfold stroke_of. cbn.
    rewrite (get_same_but_eraserSize _ _ "penColor" Hs) by done.
    rewrite (get_same_but_eraserSize _ _ "penWidth" Hs) by done.
    rewrite Hcv, Hctx, Ht, Hh. by same_split.
  - rewrite !draw_idle by congruence. by same_split.
Qed.

Lemma handle_same_but_eraserSize ev a b :
  same_but_eraserSize a b →
  same_but_eraserSize (exec (handle ev) a) (exec (handle ev) b).
Proof.
  intros Hsame. destruct ev; cbn [handle].
  - rewrite !startDrawing_eq. apply draw_same_but_eraserSize.
    destruct Hsame as (? & ? & ? & ? & ? & ?). by same_split.
  - by apply draw_same_but_eraserSize.
  - destruct Hsame as (? & ? & Hctx & ? & ? & ?).
    unfold stopDrawing. step_method. rewrite Hctx. by same_split.
  - destruct Hsame as (? & ? & Hctx & ? & ? & ?).
    unfold stopDrawing. step_method. rewrite Hctx. by same_split.
  - destruct Hsame as (? & ? & Hctx & ? & ? & ?).
    step_method. rewrite Hctx. by same_split.
  - destruct Hsame as (? & ? & Hctx & ? & ? & ?).
    step_method. rewrite Hctx. by same_split.
  - destruct Hsame as (? & ? & ? & ? & ? & ?). step_method.
    same_split. by apply insert_same_but_eraserSize.
  - destruct Hsame as (? & ? & ? & ? & ? & ?). step_method.
    same_split. by apply insert_same_but_eraserSize.
  - destruct Hsame as (? & Hcv & ? & ? & ? & Hh). step_method.
    rewrite Hh. destruct (imageLoads (host b)); step_method.
    + by same_split.
    + unfold clearRect, drawImage. step_method. rewrite Hcv, Hh.
      by same_split.
Qed.

Lemma run_same_but_eraserSize evs : ∀ a b,
  same_but_eraserSize a b →
  same_but_eraserSize (exec (run evs) a) (exec (run evs) b).
Proof.
  induction evs as [|ev evs IH]; intros a b Hsame.
  - by rewrite !run_nil.
  - rewrite !run_cons. by apply IH, handle_same_but_eraserSize.
Qed.

(** C8.  The pen button sets the compositing mode to source-over and the
    eraser button sets it to destination-out.  A segment drawn after the
    eraser was selected is stroked with the width [settings.penWidth];
    and whatever the events, the value of [settings.eraserSize] has no
    effect on what is painted. *)
Theorem eraser_strokes_with_penWidth (st : Plugin) :
  (currentTool (exec (handle penButton_click) st) = Some pen
   ∧ globalCompositeOperation (ctx (exec (handle penButton_click) st))
     = "source-over")
  ∧ (currentTool (exec (handle eraserButton_click) st) = Some eraser
     ∧ globalCompositeOperation (ctx (exec (handle eraserButton_click) st))
       = "destination-out")
  ∧ (∀ e : Point,
       isDrawing st = true →
       painted (canvas (exec (run [eraserButton_click; mousemove e]) st))
       = painted (canvas st)
         ++ [Stroke (add_point e (path (ctx st)))
                    (get (settings st) "penColor")
                    (get (settings st) "penWidth")
                    "round" "round" "destination-out"])
  ∧ (∀ (evs : list Event) (size : JsVal),
       painted (canvas (exec (run evs)
                  (set_settings (<["eraserSize" := size]> (settings st)) st)))
       = painted (canvas (exec (run evs) st))).
Proof.
  split; [by split|]. split; [by split|]. split.
  - intros e Hactive. rewrite !run_cons, run_nil. cbn [handle].
    rewrite draw_active by exact Hactive. reflexivity.
  - intros evs size.
    pose proof (run_same_but_eraserSize evs
                  (set_settings (<["eraserSize" := size]> (settings st)) st) st)
      as Hrun.
    destruct Hrun as (_ & Hcv & _).
    + repeat split. cbn [settings set_settings].
      apply map_eq; intros j. destruct (decide (j = "eraserSize")) as [->|Hj].
      * by rewrite !lookup_delete_eq.
      * rewrite !lookup_delete_ne by done. by rewrite lookup_insert_ne.
    + by rewrite Hcv.
Qed.

(** ** Saving and loading the drawing *)

Lemma saveDrawing_canvas rt now fault st :
  canvas (exec (saveDrawing rt now fault) st) = canvas st.
Proof.
  unfold saveDrawing. step_method.
  destruct fault, (global_Obsidian rt); reflexivity.
Qed.

Lemma saveDrawing_saveCalls rt now fault st :
  saveCalls (host (exec (saveDrawing rt now fault) st))
  = saveCalls (host st) ++ [Some (snapshot rt (canvas st) now)].
Proof.
  unfold saveDrawing. step_method.
  destruct fault, (global_Obsidian rt); reflexivity.
Qed.

Lemma saveDrawing_storage rt now st :
  storage (host (exec (saveDrawing rt now None) st))
  = Some (snapshot rt (canvas st) now).
Proof.
  unfold saveDrawing. step_method.
  destruct (global_Obsidian rt); reflexivity.
Qed.

(** C5.  Two calls of [saveDrawing] in succession hand [saveData] records
    with the same [drawing] payload, the encoding of the canvas as it was
    before the first call; the records differ in [timestamp] only.  When
    the host accepts the writes, these two records are what is stored
    after the first and after the second call. *)
Theorem saveDrawing_twice_same_payload
    (rt : Runtime) (st : Plugin) (t1 t2 : Z) (f1 f2 : option JsError) :
  let payload := VStr (toDataURL rt (canvas st)) in
  let first := {[ "drawing" := payload; "timestamp" := VNum t1 ]} in
  let second := {[ "drawing" := payload; "timestamp" := VNum t2 ]} in
  saveCalls (host (exec (saveDrawing rt t2 f2) (exec (saveDrawing rt t1 f1) st)))
  = saveCalls (host st) ++ [Some first; Some second]
  ∧ storage (host (exec (saveDrawing rt t1 None) st)) = Some first
  ∧ storage (host (exec (saveDrawing rt t2 None)
                     (exec (saveDrawing rt t1 None) st))) = Some second
  ∧ get first "drawing" = get second "drawing"
  ∧ delete "timestamp" first = delete "timestamp" second.
Proof.
  intros payload first second. subst payload first second.
  split; [|split; [|split; [|split]]].
  - rewrite !saveDrawing_saveCalls, saveDrawing_canvas.
    by rewrite <- app_assoc.
  - by rewrite saveDrawing_storage.
  - by rewrite saveDrawing_storage, saveDrawing_canvas.
  - reflexivity.
  - apply map_eq; intros k.
    destruct (decide (k = "timestamp")) as [->|Hk].
    + by rewrite !lookup_delete_eq.
    + rewrite !lookup_delete_ne by done.
      destruct (decide (k = "drawing")) as [->|Hd].
      * by rewrite !lookup_insert_eq.
      * rewrite !lookup_insert_ne by done.
        by rewrite !lookup_singleton_ne.
Qed.

Lemma loadDrawing_no_drawing st :
  no_drawing_field (storage (host st)) →
  loadDrawing None st = (Normal (), st).
Proof.
  intros Hnone. unfold loadDrawing. step_method.
  destruct (storage (host st)) as [record|]; [|reflexivity].
  cbn in Hnone. unfold get. by rewrite Hnone.
Qed.

(** C6.  The "Clear Drawing" button stores [null].  When the stored
    record is [null] or has no [drawing] field, [loadDrawing] changes
    nothing: no image is created, so neither [clearRect] nor [drawImage]
    is ever called for it.  Hence the activation after a clear starts a
    new canvas with nothing painted on it and no image to come. *)
Theorem cleared_drawing_is_not_reloaded
    (rt : Runtime) (st : Plugin) (innerWidth innerHeight : Z) :
  let cleared := exec (clearDrawing_onClick rt None) st in
  let next := exec (initializeDrawingCanvas innerWidth innerHeight None) cleared in
  storage (host cleared) = None
  ∧ painted (canvas next) = []
  ∧ imageLoads (host next) = imageLoads (host st)
  ∧ (∀ st0 : Plugin,
       no_drawing_field (storage (host st0)) →
       outcome (loadDrawing None) st0 = Normal ()
       ∧ exec (loadDrawing None) st0 = st0
       ∧ painted (canvas (exec (loadDrawing None) st0)) = painted (canvas st0)
       ∧ imageLoads (host (exec (loadDrawing None) st0)) = imageLoads (host st0)).
Proof.
  intros cleared next. subst cleared next.
  split; [|split; [|split]].
  - unfold clearDrawing_onClick. step_method.
    destruct (global_Obsidian rt); reflexivity.
  - unfold clearDrawing_onClick, initializeDrawingCanvas, loadDrawing.
    step_method. destruct (global_Obsidian rt); reflexivity.
  - unfold clearDrawing_onClick, initializeDrawingCanvas, loadDrawing.
    step_method. destruct (global_Obsidian rt); reflexivity.
  - intros st0 Hnone. unfold exec, outcome.
    rewrite (loadDrawing_no_drawing st0 Hnone). by repeat split.
Qed.

(** C10.  [saveDrawing] stores a record whose keys are exactly [drawing]
    and [timestamp], whatever was stored before.  A [loadSettings] that
    reads this record finds no settings key in it, so each of [penColor],
    [penWidth], [eraserSize] and [showToolbar] gets its default value. *)
Theorem saveDrawing_discards_settings
    (rt : Runtime) (st fresh : Plugin) (now : Z) :
  let saved := exec (saveDrawing rt now None) st in
  storage (host fresh) = storage (host saved) →
  let loaded := settings (exec (loadSettings None) fresh) in
  storage (host saved) = Some (snapshot rt (canvas st) now)
  ∧ dom (snapshot rt (canvas st) now) = {[ "drawing"; "timestamp" ]}
  ∧ (∀ k, k ∈ dom DEFAULT_SETTINGS → loaded !! k = DEFAULT_SETTINGS !! k)
  ∧ get loaded "penColor" = VStr "#000000"
  ∧ get loaded "penWidth" = VNum 2
  ∧ get loaded "eraserSize" = VNum 10
  ∧ get loaded "showToolbar" = VBool true.
Proof.
  intros saved Hstored loaded. subst saved loaded.
  rewrite loadSettings_settings, Hstored, saveDrawing_storage.
  assert (∀ k, k ∈ dom DEFAULT_SETTINGS →
            Object_assign ∅ [Some DEFAULT_SETTINGS;
                             Some (snapshot rt (canvas st) now)] !! k
            = DEFAULT_SETTINGS !! k) as Hdefault.
  { intros k Hk. rewrite Object_assign_lookup.
    apply elem_of_dom in Hk.
    assert (k ≠ "drawing" ∧ k ≠ "timestamp") as [Hd Ht].
    { split; intros ->; by destruct Hk. }
    unfold snapshot. by rewrite lookup_insert_ne, lookup_singleton_ne. }
  split; [reflexivity|]. split.
  { unfold snapshot. by rewrite dom_insert_L, dom_singleton_L. }
  split; [exact Hdefault|].
  unfold get.
  rewrite !Hdefault by (apply elem_of_dom; eexists; reflexivity).
  by repeat split.
Qed.

(** ** Failures of the host calls *)

(** [loadDrawing] catches a rejected [loadData]: the error goes to the
    console, nothing is thrown and no notice is shown. *)
Lemma loadDrawing_catches (fault : option JsError) (st : Plugin) :
  outcome (loadDrawing fault) st = Normal ()
  ∧ notices (host (exec (loadDrawing fault) st)) = notices (host st)
  ∧ (∀ e, fault = Some e →
       consoleErrors (host (exec (loadDrawing fault) st))
       = consoleErrors (host st) ++ [("Failed to load drawing:", e)]).
Proof.
  unfold loadDrawing. step_method. destruct fault as [e|]; step_method.
  - split; [reflexivity|]. split; [reflexivity|]. by intros ? [= ->].
  - destruct (storage (host st)) as [record|];
      [destruct (truthy (get record "drawing"))|]; by repeat split.
Qed.

(** Where the global scope does bind [Obsidian], [saveDrawing] never
    throws and shows one notice, of success or of failure. *)
Lemma saveDrawing_notifies (rt : Runtime) (now : Z) (fault : option JsError)
    (st : Plugin) :
  global_Obsidian rt = true →
  outcome (saveDrawing rt now fault) st = Normal ()
  ∧ notices (host (exec (saveDrawing rt now fault) st))
    = notices (host st)
      ++ [match fault with
          | None => "Drawing saved successfully!"
          | Some _ => "Failed to save drawing"
          end]
  ∧ consoleErrors (host (exec (saveDrawing rt now fault) st))
    = consoleErrors (host st)
      ++ match fault with
         | None => []
         | Some e => [("Failed to save drawing:", e)]
         end.
Proof.
  intros Hbound. unfold saveDrawing. step_method. rewrite Hbound.
  destruct fault; cbn; rewrite ?app_nil_r; by repeat split.
Qed.

(** C7 (as the code behaves).  The file never binds the name [Obsidian]:
    with no such global, [new Obsidian.Notice(...)] throws a
    ReferenceError.  In [saveDrawing] this happens after a successful
    [saveData] (the error is caught and logged as a failed save) and again
    inside the [catch] block, from where it leaves the method: whether
    the host call resolves or rejects, [saveDrawing] ends by throwing and
    no notice is shown. *)
Theorem saveDrawing_throws_without_global_Obsidian
    (encode : Canvas → string) (now : Z) (fault : option JsError) (st : Plugin) :
  let rt := {| toDataURL := encode; global_Obsidian := false |} in
  outcome (saveDrawing rt now fault) st = Throw (ReferenceError "Obsidian")
  ∧ notices (host (exec (saveDrawing rt now fault) st)) = notices (host st)
  ∧ consoleErrors (host (exec (saveDrawing rt now fault) st))
    = consoleErrors (host st)
      ++ [("Failed to save drawing:", default (ReferenceError "Obsidian") fault)].
Proof.
  intros rt. subst rt. unfold saveDrawing. step_method.
  destruct fault; by repeat split.
Qed.

(** [loadDrawing] does start an image when the stored record has a
    drawing, and the image's [onload] clears the canvas and paints it. *)
Lemma loadDrawing_starts_image (st : Plugin) (record : JsObject) :
  storage (host st) = Some record →
  truthy (get record "drawing") = true →
  imageLoads (host (exec (loadDrawing None) st))
  = imageLoads (host st) ++ [get record "drawing"]
  ∧ painted (canvas (exec (loadDrawing None) st)) = painted (canvas st).
Proof.
  intros Hstored Htruthy. unfold loadDrawing. step_method.
  rewrite Hstored, Htruthy. by split.
Qed.

Lemma img_onload_paints (st : Plugin) (img : JsVal) (rest : list JsVal) :
  imageLoads (host st) = img :: rest →
  painted (canvas (exec (handle img_onload) st))
  = painted (canvas st)
    ++ [ClearRect 0 0 (width (canvas st)) (height (canvas st));
        DrawImage img 0 0].
Proof.
  intros Hpending. cbn [handle]. step_method. rewrite Hpending.
  unfold clearRect, drawImage, paint. step_method. cbn.
  by rewrite <- app_assoc.
Qed.

(** The settings tab of the TypeScript variant, unlike the toolbar, saves
    the settings on every change. *)
Lemma penColor_onChange_persists (st : Plugin) (value : string) :
  storage (host (exec (penColor_onChange value None) st))
  = Some (<["penColor" := VStr value]> (settings st)).
Proof. reflexivity. Qed.

(** ** The statements at concrete inputs *)

Lemma loadSettings_merges_over_defaults_witness :
  settings (exec (loadSettings None) (new_plugin empty_host)) = DEFAULT_SETTINGS
  ∧ settings (exec (loadSettings None)
                (new_plugin (host_storing (Some {[ "penWidth" := VNum 5 ]}))))
    !! "penWidth" = Some (VNum 5)
  ∧ settings (exec (loadSettings None)
                (new_plugin (host_storing (Some {[ "penWidth" := VNum 5 ]}))))
    !! "penColor" = Some (VStr "#000000").
Proof.
  destruct (loadSettings_merges_over_defaults (new_plugin empty_host))
    as [Hnull _].
  destruct (loadSettings_merges_over_defaults
              (new_plugin (host_storing (Some {[ "penWidth" := VNum 5 ]}))))
    as [_ Hsome].
  destruct (Hsome {[ "penWidth" := VNum 5 ]} eq_refl) as (_ & Hkept & Hdefault).
  { apply (bool_decide_unpack _). vm_compute. exact I. }
  split; [apply Hnull; reflexivity|]. split.
  - apply Hkept. reflexivity.
  - rewrite Hdefault; reflexivity.
Defined.

Lemma settings_round_trip_witness :
  let st := set_settings (<["penColor" := VStr "#ff0000"]> DEFAULT_SETTINGS)
                         mounted_overlay in
  let fresh := new_plugin (host (exec (saveSettings None) st)) in
  settings (exec (loadSettings None) fresh) = settings st.
Proof.
  intros st fresh.
  refine (proj1 (proj2 (proj2 (settings_round_trip st fresh _ eq_refl)))).
  apply (bool_decide_unpack _). vm_compute. exact I.
Defined.

Lemma click_paints_a_dot_witness :
  painted (canvas (exec (run [mousedown (10, 10); mouseup]) mounted_overlay))
  = [Stroke [[(10, 10)]] (VStr "#000000") (VNum 2) "round" "round"
            "source-over"]
  ∧ isDrawing (exec (run [mousedown (10, 10); mouseup]) mounted_overlay) = false.
Proof.
  destruct (click_paints_a_dot mounted_overlay eq_refl) as (Hpainted & _ & Hidle & _).
  split; [exact Hpainted | exact Hidle].
Defined.

Lemma moves_paint_independent_segments_witness :
  painted (canvas (exec (run [mousedown (0, 0); mousemove (50, 50);
                              colorPicker_change "#ff0000";
                              mousemove (100, 0); mouseup]) mounted_overlay))
  = [Stroke [[(0, 0)]] (VStr "#000000") (VNum 2) "round" "round" "source-over";
     Stroke [[(0, 0); (50, 50)]] (VStr "#000000") (VNum 2) "round" "round"
            "source-over";
     Stroke [[(50, 50); (100, 0)]] (VStr "#ff0000") (VNum 2) "round" "round"
            "source-over"].
Proof.
  destruct (moves_paint_independent_segments mounted_overlay "#ff0000" eq_refl)
    as (_ & Hrecoloured & _).
  exact Hrecoloured.
Defined.

Lemma toolbar_changes_only_touch_settings_witness :
  settings (exec (handle (colorPicker_change "#ff0000")) mounted_overlay)
  !! "penWidth" = Some (VNum 2)
  ∧ settings (exec (handle (penWidthSlider_input "7")) mounted_overlay)
    !! "penColor" = Some (VStr "#000000")
  ∧ saveCalls (host (exec (handle (penWidthSlider_input "7")) mounted_overlay))
    = [].
Proof.
  destruct (toolbar_changes_only_touch_settings mounted_overlay "#ff0000")
    as ((_ & Hothers & _) & _).
  destruct (toolbar_changes_only_touch_settings mounted_overlay "7")
    as (_ & (_ & Hothers' & _ & Hcalls & _)).
  split; [|split].
  - rewrite Hothers; [reflexivity | discriminate].
  - rewrite Hothers'; [reflexivity | discriminate].
  - exact Hcalls.
Defined.

Lemma eraser_strokes_with_penWidth_witness :
  painted (canvas (exec (run [eraserButton_click; mousemove (5, 5)])
                        (set_isDrawing true mounted_overlay)))
  = [Stroke [[(5, 5)]] (VStr "#000000") (VNum 2) "round" "round"
            "destination-out"].
Proof.
  destruct (eraser_strokes_with_penWidth (set_isDrawing true mounted_overlay))
    as (_ & _ & Herase & _).
  exact (Herase (5, 5) eq_refl).
Defined.

Lemma cleared_drawing_is_not_reloaded_witness :
  exec (loadDrawing None)
       (new_plugin (host_storing (Some {[ "timestamp" := VNum 1 ]})))
  = new_plugin (host_storing (Some {[ "timestamp" := VNum 1 ]})).
Proof.
  destruct (cleared_drawing_is_not_reloaded (runtime_with true)
              mounted_overlay 800 600) as (_ & _ & _ & Hload).
  destruct (Hload (new_plugin (host_storing (Some {[ "timestamp" := VNum 1 ]}))))
    as (_ & Hsame & _).
  - reflexivity.
  - exact Hsame.
Defined.

Lemma saveDrawing_discards_settings_witness :
  let st := set_settings (<["penColor" := VStr "#ff0000"]> DEFAULT_SETTINGS)
                         mounted_overlay in
  let saved := exec (saveSettings None ;; saveDrawing (runtime_with true) 1000 None) st in
  get (settings (exec (loadSettings None) (new_plugin (host saved)))) "penColor"
  = VStr "#000000".
Proof.
  intros st saved.
  destruct (saveDrawing_discards_settings (runtime_with true)
              (exec (saveSettings None) st) (new_plugin (host saved)) 1000 eq_refl)
    as (_ & _ & _ & Hcolor & _).
  exact Hcolor.
Defined.

(** * Further properties of the overlay *)

(** ** Event sequences *)

(** No handler of the overlay throws. *)
Lemma handle_normal (ev : Event) (st : Plugin) :
  handle ev st = (Normal (), exec (handle ev) st).
Proof.
  destruct ev; cbn [handle]; unfold startDrawing, draw, stopDrawing;
    step_method; try reflexivity.
  - by destruct (isDrawing st).
  - by destruct (imageLoads (host st)).
Qed.

Lemma run_normal (evs : list Event) : ∀ st,
  outcome (run evs) st = Normal ().
Proof.
  induction evs as [|ev evs IH]; intros st; [reflexivity|].
  specialize (IH (exec (handle ev) st)).
  unfold outcome in *. cbn [run]. unfold mbind, M_bind.
  by rewrite handle_normal.
Qed.

Lemma run_app (evs evs' : list Event) : ∀ st,
  exec (run (evs ++ evs')) st = exec (run evs') (exec (run evs) st).
Proof.
  induction evs as [|ev evs IH]; intros st; [reflexivity|].
  cbn [app]. by rewrite !run_cons, IH.
Qed.

(** What one event paints, when the path is as the handlers leave it. *)
Lemma handle_single_segment (ev : Event) (st : Plugin) :
  path_reset st = true →
  path_reset (exec (handle ev) st) = true
  ∧ ∃ new, painted (canvas (exec (handle ev) st)) = painted (canvas st) ++ new
           ∧ forallb single_segment new = true.
Proof.
  unfold path_reset. intros Hreset.
  destruct ev; cbn [handle].
  - rewrite startDrawing_eq, draw_active by reflexivity.
    split; [reflexivity|]. eexists. split; [reflexivity|].
    cbn. destruct (isDrawing st), (path (ctx st)) as [|[|p [|q s]] [|s' r]];
      try discriminate; reflexivity.
  - destruct (isDrawing st) eqn:Hactive.
    + rewrite draw_active by done.
      split; [reflexivity|]. eexists. split; [reflexivity|].
      cbn. destruct (path (ctx st)) as [|[|p [|q s]] [|s' r]];
        try discriminate; reflexivity.
    + rewrite draw_idle by done. rewrite Hactive.
      split; [done|]. exists []. by rewrite app_nil_r.
  - split; [reflexivity|]. exists []. by rewrite app_nil_r.
  - split; [reflexivity|]. exists []. by rewrite app_nil_r.
  - split; [exact Hreset|]. exists []. by rewrite app_nil_r.
  - split; [exact Hreset|]. exists []. by rewrite app_nil_r.
  - split; [exact Hreset|]. exists []. by rewrite app_nil_r.
  - split; [exact Hreset|]. exists []. by rewrite app_nil_r.
  - step_method. destruct (imageLoads (host st)) as [|img rest]; step_method.
    + split; [exact Hreset|]. exists []. by rewrite app_nil_r.
    + split; [exact Hreset|].
      exists [ClearRect 0 0 (width (canvas st)) (height (canvas st));
              DrawImage img 0 0].
      split; [|reflexivity]. cbn. by rewrite <- app_assoc.
Qed.

(** X1.  Paths never accumulate.  Starting from a state whose path is as
    the handlers leave it (empty while idle, one point while drawing),
    every sequence of events leaves the path in that form, and each
    stroke it paints is of a single subpath of one or two points: a dot
    or one segment. *)
Theorem strokes_never_accumulate (evs : list Event) : ∀ st : Plugin,
  path_reset st = true →
  path_reset (exec (run evs) st) = true
  ∧ ∃ new, painted (canvas (exec (run evs) st)) = painted (canvas st) ++ new
           ∧ forallb single_segment new = true.
Proof.
  induction evs as [|ev evs IH]; intros st Hreset.
  - split; [exact Hreset|]. exists []. by rewrite run_nil, app_nil_r.
  - rewrite run_cons.
    destruct (handle_single_segment ev st Hreset) as (Hreset' & new & Hnew & Hseg).
    destruct (IH _ Hreset') as (Hreset'' & new' & Hnew' & Hseg').
    split; [exact Hreset''|]. exists (new ++ new'). split.
    + by rewrite Hnew', Hnew, app_assoc.
    + rewrite forallb_app, Hseg, Hseg'. reflexivity.
Qed.

(** X2.  While no stroke is in progress, events other than a pointer-down
    and an image load paint nothing: pointer moves over the canvas,
    pointer-up, pointer-out and the toolbar controls leave the canvas as
    it is and the overlay idle. *)
Theorem idle_moves_paint_nothing (evs : list Event) : ∀ st : Plugin,
  isDrawing st = false →
  forallb (λ ev, negb (is_mousedown ev || is_img_onload ev)) evs = true →
  canvas (exec (run evs) st) = canvas st
  ∧ isDrawing (exec (run evs) st) = false.
Proof.
  induction evs as [|ev evs IH]; intros st Hidle Hevs; [by split|].
  cbn [forallb] in Hevs. apply andb_true_iff in Hevs as [Hev Hevs].
  rewrite run_cons.
  assert (canvas (exec (handle ev) st) = canvas st
          ∧ isDrawing (exec (handle ev) st) = false) as [Hcv Hidle'].
  { destruct ev; try discriminate; cbn [handle]; try by split.
    rewrite draw_idle by done. by split. }
  destruct (IH _ Hidle' Hevs) as [Hcv' Hidle''].
  split; [by rewrite Hcv', Hcv | exact Hidle''].
Qed.

Lemma handle_host (ev : Event) (st : Plugin) :
  storage (host (exec (handle ev) st)) = storage (host st)
  ∧ saveCalls (host (exec (handle ev) st)) = saveCalls (host st)
  ∧ consoleErrors (host (exec (handle ev) st)) = consoleErrors (host st)
  ∧ notices (host (exec (handle ev) st)) = notices (host st)
  ∧ width (canvas (exec (handle ev) st)) = width (canvas st)
  ∧ height (canvas (exec (handle ev) st)) = height (canvas st)
  ∧ (is_img_onload ev = false →
     imageLoads (host (exec (handle ev) st)) = imageLoads (host st)).
Proof.
  destruct ev; cbn [handle]; try by repeat split.
  - destruct (isDrawing st) eqn:Hactive;
      [rewrite draw_active by done | rewrite draw_idle by done];
      by repeat split.
  - step_method. destruct (imageLoads (host st)); by repeat split.
Qed.

(** X3.  Nothing the user does on the overlay reaches the host: for every
    sequence of pointer, toolbar and image events no handler throws,
    [saveData] is not called, the stored record, the console and the
    notices are as before, and the canvas keeps its size. *)
Theorem overlay_events_leave_the_host (evs : list Event) : ∀ st : Plugin,
  outcome (run evs) st = Normal ()
  ∧ storage (host (exec (run evs) st)) = storage (host st)
  ∧ saveCalls (host (exec (run evs) st)) = saveCalls (host st)
  ∧ consoleErrors (host (exec (run evs) st)) = consoleErrors (host st)
  ∧ notices (host (exec (run evs) st)) = notices (host st)
  ∧ width (canvas (exec (run evs) st)) = width (canvas st)
  ∧ height (canvas (exec (run evs) st)) = height (canvas st).
Proof.
  intros st. split; [apply run_normal|]. revert st.
  induction evs as [|ev evs IH]; intros st; [by repeat split|].
  rewrite run_cons.
  destruct (handle_host ev st) as (H1 & H2 & H3 & H4 & H5 & H6 & _).
  destruct (IH (exec (handle ev) st)) as (I1 & I2 & I3 & I4 & I5 & I6).
  repeat split; congruence.
Qed.

Lemma run_imageLoads (evs : list Event) : ∀ st,
  forallb (λ ev, negb (is_img_onload ev)) evs = true →
  imageLoads (host (exec (run evs) st)) = imageLoads (host st).
Proof.
  induction evs as [|ev evs IH]; intros st Hevs; [reflexivity|].
  cbn [forallb] in Hevs. apply andb_true_iff in Hevs as [Hev Hevs].
  rewrite run_cons, IH by done.
  destruct (handle_host ev st) as (_ & _ & _ & _ & _ & _ & Himg).
  apply Himg. by destruct (is_img_onload ev).
Qed.

(** X4.  The overlay writes two settings and no other: whatever the
    events, every key of the live settings other than [penColor] and
    [penWidth] keeps its value, present or absent. *)
Theorem overlay_events_write_two_settings (evs : list Event) :
  ∀ (st : Plugin) (k : string),
  k ≠ "penColor" → k ≠ "penWidth" →
  settings (exec (run evs) st) !! k = settings st !! k.
Proof.
  induction evs as [|ev evs IH]; intros st k Hcolor Hwidth; [reflexivity|].
  rewrite run_cons, IH by done.
  destruct ev; cbn [handle]; try reflexivity.
  - destruct (isDrawing st) eqn:Hactive;
      [by rewrite draw_active | by rewrite draw_idle].
  - step_method. by rewrite lookup_insert_ne.
  - step_method. by rewrite lookup_insert_ne.
  - step_method. by destruct (imageLoads (host st)).
Qed.

Lemma handle_mode (ev : Event) (st : Plugin) (mode : string) :
  is_tool_button ev = false →
  globalCompositeOperation (ctx st) = mode →
  globalCompositeOperation (ctx (exec (handle ev) st)) = mode
  ∧ ∃ new, painted (canvas (exec (handle ev) st)) = painted (canvas st) ++ new
           ∧ forallb (composited_with mode) new = true.
Proof.
  intros Hev Hmode. destruct ev; try discriminate; cbn [handle].
  - rewrite startDrawing_eq, draw_active by reflexivity.
    split; [exact Hmode|]. eexists. split; [reflexivity|].
    cbn. rewrite Hmode. by rewrite String.eqb_refl.
  - destruct (isDrawing st) eqn:Hactive.
    + rewrite draw_active by done.
      split; [exact Hmode|]. eexists. split; [reflexivity|].
      cbn. rewrite Hmode. by rewrite String.eqb_refl.
    + rewrite draw_idle by done. split; [exact Hmode|].
      exists []. by rewrite app_nil_r.
  - split; [exact Hmode|]. exists []. by rewrite app_nil_r.
  - split; [exact Hmode|]. exists []. by rewrite app_nil_r.
  - split; [exact Hmode|]. exists []. by rewrite app_nil_r.
  - split; [exact Hmode|]. exists []. by rewrite app_nil_r.
  - step_method. destruct (imageLoads (host st)) as [|img rest]; step_method.
    + split; [exact Hmode|]. exists []. by rewrite app_nil_r.
    + split; [exact Hmode|].
      exists [ClearRect 0 0 (width (canvas st)) (height (canvas st));
              DrawImage img 0 0].
      split; [|reflexivity]. cbn. by rewrite <- app_assoc.
Qed.

Lemma run_mode (evs : list Event) : ∀ (st : Plugin) (mode : string),
  forallb (λ ev, negb (is_tool_button ev)) evs = true →
  globalCompositeOperation (ctx st) = mode →
  ∃ new, painted (canvas (exec (run evs) st)) = painted (canvas st) ++ new
         ∧ forallb (composited_with mode) new = true.
Proof.
  induction evs as [|ev evs IH]; intros st mode Hevs Hmode.
  - exists []. by rewrite run_nil, app_nil_r.
  - cbn [forallb] in Hevs. apply andb_true_iff in Hevs as [Hev Hevs].
    apply negb_true_iff in Hev. rewrite run_cons.
    destruct (handle_mode ev st mode Hev Hmode) as (Hmode' & new & Hnew & Hall).
    destruct (IH _ mode Hevs Hmode') as (new' & Hnew' & Hall').
    exists (new ++ new'). split.
    + by rewrite Hnew', Hnew, app_assoc.
    + by rewrite forallb_app, Hall, Hall'.
Qed.

(** X5.  A tool stays selected until the other button is clicked: every
    stroke painted after the eraser button, up to the next click on a
    tool button, is composited with destination-out, and every stroke
    after the pen button with source-over, however many strokes and
    toolbar changes come in between. *)
Theorem tool_holds_until_next_button (evs : list Event) (st : Plugin) :
  forallb (λ ev, negb (is_tool_button ev)) evs = true →
  (∃ new, painted (canvas (exec (run (eraserButton_click :: evs)) st))
          = painted (canvas st) ++ new
          ∧ forallb (composited_with "destination-out") new = true)
  ∧ (∃ new, painted (canvas (exec (run (penButton_click :: evs)) st))
            = painted (canvas st) ++ new
            ∧ forallb (composited_with "source-over") new = true).
Proof.
  intros Hevs. split; rewrite run_cons.
  - by apply (run_mode evs (exec (handle eraserButton_click) st)).
  - by apply (run_mode evs (exec (handle penButton_click) st)).
Qed.

(** ** Activation and the saved drawing *)

(** X6.  Every activation starts from nothing: the new canvas has the
    window's size and nothing painted, and the new context has the
    defaults of a new context (source-over, empty path), whatever was
    drawn or selected before; the settings, the selected tool and the
    stored record are kept.  A rejected [loadData] changes none of this
    and only adds a line on the console. *)
Theorem activation_starts_blank
    (innerWidth innerHeight : Z) (fault : option JsError) (st : Plugin) :
  let st' := exec (initializeDrawingCanvas innerWidth innerHeight fault) st in
  canvas st' = {| width := innerWidth; height := innerHeight; painted := [] |}
  ∧ ctx st' = fresh_ctx
  ∧ settings st' = settings st
  ∧ currentTool st' = currentTool st
  ∧ storage (host st') = storage (host st)
  ∧ notices (host st') = notices (host st)
  ∧ consoleErrors (host st')
    = consoleErrors (host st)
      ++ match fault with
         | Some e => [("Failed to load drawing:", e)]
         | None => []
         end.
Proof.
  intros st'. subst st'. unfold initializeDrawingCanvas, loadDrawing.
  step_method. destruct fault as [e|]; step_method.
  - by repeat split.
  - rewrite app_nil_r.
    destruct (storage (host st)) as [record|] eqn:Hstored;
      [destruct (truthy (get record "drawing"))|]; by repeat split.
Qed.

Lemma initializeDrawingCanvas_imageLoads
    (innerWidth innerHeight : Z) (st : Plugin) (record : JsObject) :
  storage (host st) = Some record →
  truthy (get record "drawing") = true →
  imageLoads (host (exec (initializeDrawingCanvas innerWidth innerHeight None) st))
  = imageLoads (host st) ++ [get record "drawing"].
Proof.
  intros Hstored Htruthy. unfold initializeDrawingCanvas, loadDrawing.
  step_method. by rewrite Hstored, Htruthy.
Qed.

(** X7.  Save, then activate again: when the encoder gives a non-empty
    data URL and no other image is being decoded, the next activation
    starts decoding exactly that data URL, and once it has loaded the
    canvas holds a clear of the whole canvas followed by the image drawn
    at the origin, and nothing else. *)
Theorem saved_drawing_is_restored
    (rt : Runtime) (st : Plugin) (now innerWidth innerHeight : Z) :
  toDataURL rt (canvas st) ≠ "" →
  imageLoads (host st) = [] →
  let payload := VStr (toDataURL rt (canvas st)) in
  let saved := exec (saveDrawing rt now None) st in
  let activated := exec (initializeDrawingCanvas innerWidth innerHeight None) saved in
  let loaded := exec (handle img_onload) activated in
  imageLoads (host activated) = [payload]
  ∧ painted (canvas loaded)
    = [ClearRect 0 0 innerWidth innerHeight; DrawImage payload 0 0]
  ∧ imageLoads (host loaded) = [].
Proof.
  intros Hpayload Hpending payload saved activated loaded.
  assert (imageLoads (host saved) = []) as Hsaved.
  { subst saved. unfold saveDrawing. step_method.
    destruct (global_Obsidian rt); exact Hpending. }
  assert (imageLoads (host activated) = [payload]) as Hactivated.
  { subst activated.
    rewrite (initializeDrawingCanvas_imageLoads _ _ saved
               (snapshot rt (canvas st) now)).
    - by rewrite Hsaved.
    - subst saved. by rewrite saveDrawing_storage.
    - cbn. apply negb_true_iff, String.eqb_neq, Hpayload. }
  split; [exact Hactivated|].
  destruct (activation_starts_blank innerWidth innerHeight None saved)
    as (Hcanvas & _).
  fold activated in Hcanvas.
  split.
  - subst loaded. rewrite (img_onload_paints activated payload []) by done.
    by rewrite Hcanvas.
  - subst loaded. cbn [handle]. step_method. by rewrite Hactivated.
Qed.

(** X8.  The saved image may arrive after the user has started to draw,
    and its [onload] clears the whole canvas before drawing it: whatever
    was painted between the activation and the arrival of the image is
    followed by a [clearRect] over the full canvas. *)
Theorem late_image_clears_the_strokes
    (st : Plugin) (record : JsObject) (innerWidth innerHeight : Z)
    (evs : list Event) :
  storage (host st) = Some record →
  truthy (get record "drawing") = true →
  imageLoads (host st) = [] →
  forallb (λ ev, negb (is_img_onload ev)) evs = true →
  let drawn := exec (run evs)
                 (exec (initializeDrawingCanvas innerWidth innerHeight None) st) in
  painted (canvas (exec (handle img_onload) drawn))
  = painted (canvas drawn)
    ++ [ClearRect 0 0 innerWidth innerHeight;
        DrawImage (get record "drawing") 0 0].
Proof.
  intros Hstored Htruthy Hpending Hevs drawn.
  set (activated := exec (initializeDrawingCanvas innerWidth innerHeight None) st)
    in *.
  assert (imageLoads (host drawn) = [get record "drawing"]) as Hloads.
  { subst drawn. rewrite run_imageLoads by done. subst activated.
    rewrite (initializeDrawingCanvas_imageLoads _ _ st record) by done.
    by rewrite Hpending. }
  destruct (overlay_events_leave_the_host evs activated)
    as (_ & _ & _ & _ & _ & Hw & Hh).
  destruct (activation_starts_blank innerWidth innerHeight None st)
    as (Hcanvas & _).
  fold activated in Hcanvas. fold drawn in Hw, Hh.
  rewrite (img_onload_paints drawn _ []) by done.
  by rewrite Hw, Hh, Hcanvas.
Qed.

Lemma truthy_false_iff (v : JsVal) : truthy v = false ↔ v ∈ falsy_values.
Proof.
  unfold falsy_values. rewrite !elem_of_cons, elem_of_nil. split.
  - destruct v as [| |[]|n| |s]; cbn; try discriminate; try tauto.
    + intros Hn. apply negb_false_iff, Z.eqb_eq in Hn. subst. tauto.
    + intros Hs. apply negb_false_iff, String.eqb_eq in Hs. subst. tauto.
  - intros [->|[->|[->|[->|[->|[->|[]]]]]]]; reflexivity.
Qed.

(** X9.  [loadDrawing] tests the stored [drawing] for truth, not for
    presence.  A record whose [drawing] is [undefined], [null], [false],
    0, NaN or the empty string is treated like a record with no drawing
    and nothing changes; with any other value an image load is started
    with that value as its source. *)
Theorem loadDrawing_tests_truthiness
    (st : Plugin) (record : JsObject) (v : JsVal) :
  storage (host st) = Some record →
  record !! "drawing" = Some v →
  (v ∈ falsy_values → exec (loadDrawing None) st = st)
  ∧ (v ∉ falsy_values →
     imageLoads (host (exec (loadDrawing None) st)) = imageLoads (host st) ++ [v]
     ∧ painted (canvas (exec (loadDrawing None) st)) = painted (canvas st)).
Proof.
  intros Hstored Hv.
  assert (get record "drawing" = v) as Hget by (unfold get; by rewrite Hv).
  split.
  - intros Hfalsy. apply truthy_false_iff in Hfalsy.
    unfold loadDrawing. step_method. by rewrite Hstored, Hget, Hfalsy.
  - intros Htruthy.
    assert (truthy v = true) as Ht.
    { destruct (truthy v) eqn:E; [reflexivity|].
      by apply truthy_false_iff in E. }
    rewrite <- Hget in Ht.
    destruct (loadDrawing_starts_image st record Hstored Ht) as [H1 H2].
    by rewrite H1, H2, Hget.
Qed.

(** ** Failed and destructive writes *)

(** X10.  A save that the host rejects loses nothing: the record stored
    before is still stored, the canvas and the settings are untouched,
    and the error is on the console, whether or not a notice can be
    shown. *)
Theorem failed_save_keeps_the_stored_record
    (rt : Runtime) (now : Z) (e : JsError) (st : Plugin) :
  let st' := exec (saveDrawing rt now (Some e)) st in
  storage (host st') = storage (host st)
  ∧ canvas st' = canvas st
  ∧ settings st' = settings st
  ∧ saveCalls (host st') = saveCalls (host st) ++ [Some (snapshot rt (canvas st) now)]
  ∧ consoleErrors (host st')
    = consoleErrors (host st) ++ [("Failed to save drawing:", e)].
Proof.
  intros st'. subst st'. unfold saveDrawing. step_method.
  destruct (global_Obsidian rt); by repeat split.
Qed.

(** X11.  The "Clear Drawing" button clears the whole stored record, not
    only the drawing: the next session's [loadSettings] finds [null] and
    the settings are the defaults, whatever settings were stored. *)
Theorem clearing_the_drawing_resets_settings (rt : Runtime) (st : Plugin) :
  let cleared := exec (clearDrawing_onClick rt None) st in
  storage (host cleared) = None
  ∧ saveCalls (host cleared) = saveCalls (host st) ++ [None]
  ∧ settings (exec (loadSettings None) (restart cleared)) = DEFAULT_SETTINGS.
Proof.
  intros cleared.
  assert (storage (host cleared) = None) as Hnull.
  { subst cleared. unfold clearDrawing_onClick. step_method.
    by destruct (global_Obsidian rt). }
  split; [exact Hnull|]. split.
  - subst cleared. unfold clearDrawing_onClick. step_method.
    by destruct (global_Obsidian rt).
  - rewrite loadSettings_settings. unfold restart. cbn [host new_plugin].
    rewrite Hnull. apply Object_assign_null.
Qed.

(** X12.  The "Clear Drawing" handler has no [try]: when the host rejects
    the write, the error leaves the handler, the stored record is kept
    and no notice is shown. *)
Theorem failed_clear_propagates (rt : Runtime) (e : JsError) (st : Plugin) :
  outcome (clearDrawing_onClick rt (Some e)) st = Throw e
  ∧ storage (host (exec (clearDrawing_onClick rt (Some e)) st)) = storage (host st)
  ∧ notices (host (exec (clearDrawing_onClick rt (Some e)) st)) = notices (host st)
  ∧ consoleErrors (host (exec (clearDrawing_onClick rt (Some e)) st))
    = consoleErrors (host st).
Proof. by repeat split. Qed.

(** ** The settings tab of the TypeScript variant *)

Lemma loadSettings_restart_lookup (st : Plugin) (stored : JsObject) (k : string) :
  storage (host st) = Some stored →
  settings (exec (loadSettings None) (restart st)) !! k
  = match stored !! k with
    | Some v => Some v
    | None => DEFAULT_SETTINGS !! k
    end.
Proof.
  intros Hstored. rewrite loadSettings_settings. unfold restart.
  cbn [host new_plugin]. by rewrite Hstored, Object_assign_lookup.
Qed.

(** X13.  A change made in the settings tab is written to storage at once
    and survives a restart: after any of the three controls changes, the
    next session's [loadSettings] gives the new value for that field and,
    for every other key the live settings had, the value it had. *)
Theorem panel_changes_survive_restart
    (st : Plugin) (color : string) (width : Z) (toolbar : bool) :
  let next (m : M unit) := settings (exec (loadSettings None) (restart (exec m st))) in
  (next (penColor_onChange color None) !! "penColor" = Some (VStr color)
   ∧ ∀ k v, k ≠ "penColor" → settings st !! k = Some v →
            next (penColor_onChange color None) !! k = Some v)
  ∧ (next (penWidth_onChange width None) !! "penWidth" = Some (VNum width)
     ∧ ∀ k v, k ≠ "penWidth" → settings st !! k = Some v →
              next (penWidth_onChange width None) !! k = Some v)
  ∧ (next (showToolbar_onChange toolbar None) !! "showToolbar" = Some (VBool toolbar)
     ∧ ∀ k v, k ≠ "showToolbar" → settings st !! k = Some v →
              next (showToolbar_onChange toolbar None) !! k = Some v).
Proof.
  intros next. subst next. cbv beta.
  split; [|split]; (split; [|intros k v Hk Hv]).
  - rewrite (loadSettings_restart_lookup _ (<["penColor" := VStr color]> (settings st)))
      by reflexivity.
    by rewrite lookup_insert_eq.
  - rewrite (loadSettings_restart_lookup _ (<["penColor" := VStr color]> (settings st)))
      by reflexivity.
    by rewrite lookup_insert_ne, Hv.
  - rewrite (loadSettings_restart_lookup _ (<["penWidth" := VNum width]> (settings st)))
      by reflexivity.
    by rewrite lookup_insert_eq.
  - rewrite (loadSettings_restart_lookup _ (<["penWidth" := VNum width]> (settings st)))
      by reflexivity.
    by rewrite lookup_insert_ne, Hv.
  - rewrite (loadSettings_restart_lookup _ (<["showToolbar" := VBool toolbar]> (settings st)))
      by reflexivity.
    by rewrite lookup_insert_eq.
  - rewrite (loadSettings_restart_lookup _ (<["showToolbar" := VBool toolbar]> (settings st)))
      by reflexivity.
    by rewrite lookup_insert_ne, Hv.
Qed.

(** X14.  The settings tab changes the live settings before it saves
    them and does not catch a failed save: when the host rejects the
    write, the handler throws, the live settings have the new value and
    the stored record is the old one, so the next session loads what it
    would have loaded without the change. *)
Theorem failed_panel_save_diverges
    (st : Plugin) (color : string) (e : JsError) :
  let st' := exec (penColor_onChange color (Some e)) st in
  outcome (penColor_onChange color (Some e)) st = Throw e
  ∧ settings st' = <["penColor" := VStr color]> (settings st)
  ∧ storage (host st') = storage (host st)
  ∧ saveCalls (host st')
    = saveCalls (host st) ++ [Some (<["penColor" := VStr color]> (settings st))]
  ∧ settings (exec (loadSettings None) (restart st'))
    = settings (exec (loadSettings None) (restart st)).
Proof. by repeat split. Qed.

(** ** One stored record for settings and drawing *)

(** X15.  [loadSettings] filters nothing: every key of the stored record
    ends up in the live settings with its stored value, a settings key or
    not, and the keys of the result are those of the defaults together
    with those of the record. *)
Theorem loadSettings_keeps_every_stored_key (st : Plugin) (record : JsObject) :
  storage (host st) = Some record →
  let s := settings (exec (loadSettings None) st) in
  dom s = dom DEFAULT_SETTINGS ∪ dom record
  ∧ ∀ k v, record !! k = Some v → s !! k = Some v.
Proof.
  intros Hstored s. subst s. rewrite loadSettings_settings, Hstored. split.
  - cbn. rewrite (right_id_L ∅ (∪)), dom_union_L. apply (comm_L (∪)).
  - intros k v Hk. by rewrite Object_assign_lookup, Hk.
Qed.

(** X16.  The drawing travels through the settings.  After [saveDrawing],
    the next session's [loadSettings] puts [drawing] and [timestamp] into
    the live settings beside the four defaults; a [saveSettings] then
    writes them back, so a following [loadDrawing] still starts loading
    the same image. *)
Theorem drawing_survives_a_settings_cycle
    (rt : Runtime) (st : Plugin) (now : Z) :
  toDataURL rt (canvas st) ≠ "" →
  let payload := VStr (toDataURL rt (canvas st)) in
  let saved := exec (saveDrawing rt now None) st in
  let cycled := exec (loadSettings None ;; saveSettings None) (restart saved) in
  dom (settings cycled) = dom DEFAULT_SETTINGS ∪ {[ "drawing"; "timestamp" ]}
  ∧ settings cycled !! "drawing" = Some payload
  ∧ storage (host cycled) = Some (settings cycled)
  ∧ imageLoads (host (exec (loadDrawing None) cycled))
    = imageLoads (host st) ++ [payload].
Proof.
  intros Hpayload payload saved cycled.
  assert (storage (host (restart saved)) = Some (snapshot rt (canvas st) now))
    as Hstored.
  { subst saved. unfold restart. cbn [host new_plugin].
    apply saveDrawing_storage. }
  assert (settings cycled = settings (exec (loadSettings None) (restart saved)))
    as Hsettings by reflexivity.
  destruct (loadSettings_keeps_every_stored_key _ _ Hstored) as [Hdom Hkeys].
  assert (settings cycled !! "drawing" = Some payload) as Hdrawing.
  { rewrite Hsettings. apply Hkeys. unfold snapshot. by rewrite lookup_insert_eq. }
  split; [|split; [exact Hdrawing|split; [reflexivity|]]].
  - rewrite Hsettings, Hdom. unfold snapshot.
    by rewrite dom_insert_L, dom_singleton_L.
  - destruct (loadDrawing_starts_image cycled (settings cycled) eq_refl) as [Hloads _].
    + unfold get. rewrite Hdrawing. cbn.
      apply negb_true_iff, String.eqb_neq, Hpayload.
    + rewrite Hloads. unfold get. rewrite Hdrawing. cbn.
      f_equal. subst cycled saved. unfold restart, saveDrawing. step_method.
      by destruct (global_Obsidian rt).
Qed.

(** X17.  Toolbar changes do not outlive the session on their own, but
    the settings tab saves the whole live object.  After any events on
    the overlay the next session loads the settings it would have loaded
    anyway; and a colour picked on the toolbar is stored as soon as any
    control of the settings tab changes afterwards. *)
Theorem toolbar_changes_persist_only_with_the_panel
    (evs : list Event) (st : Plugin) (color : string) (toolbar : bool) :
  settings (exec (loadSettings None) (restart (exec (run evs) st)))
  = settings (exec (loadSettings None) (restart st))
  ∧ settings (exec (loadSettings None)
                (restart (exec (handle (colorPicker_change color) ;;
                                showToolbar_onChange toolbar None) st)))
    !! "penColor" = Some (VStr color).
Proof.
  split.
  - rewrite !loadSettings_settings. unfold restart. cbn [host new_plugin].
    destruct (overlay_events_leave_the_host evs st) as (_ & Hstorage & _).
    by rewrite Hstorage.
  - rewrite (loadSettings_restart_lookup _
               (<["showToolbar" := VBool toolbar]>
                  (<["penColor" := VStr color]> (settings st))))
      by reflexivity.
    by rewrite lookup_insert_ne, lookup_insert_eq.
Qed.

(** ** A whole stroke *)

Lemma polyline_same_style (a b : Plugin) (last : Point) (pts : list Point) :
  settings a = settings b →
  globalCompositeOperation (ctx a) = globalCompositeOperation (ctx b) →
  polyline a last pts = polyline b last pts.
Proof.
  intros Hs Hmode. revert last.
  induction pts as [|p pts IH]; intros last; [reflexivity|].
  cbn [polyline]. unfold stroke_of. by rewrite Hs, Hmode, IH.
Qed.

Lemma moves_paint_polyline (pts : list Point) : ∀ (st : Plugin) (last : Point),
  isDrawing st = true →
  path (ctx st) = [[last]] →
  painted (canvas (exec (run (mousemove <$> pts)) st))
  = painted (canvas st) ++ polyline st last pts
  ∧ isDrawing (exec (run (mousemove <$> pts)) st) = true.
Proof.
  induction pts as [|p pts IH]; intros st last Hactive Hpath.
  - rewrite run_nil. cbn [polyline]. by rewrite app_nil_r.
  - cbn [fmap list_fmap polyline]. rewrite run_cons. cbn [handle].
    destruct (draw_one_segment st last p Hactive Hpath) as [Hpainted Hpath'].
    assert (isDrawing (exec (draw p) st) = true) as Hactive'
      by (by rewrite draw_active).
    destruct (IH _ p Hactive' Hpath') as [Hrest Hlast].
    split; [|exact Hlast].
    rewrite Hrest, Hpainted, <- app_assoc. cbn [app].
    do 2 f_equal. apply polyline_same_style; by rewrite draw_active.
Qed.

(** X18.  A freehand stroke is painted as the polyline through the
    pointer positions.  From an idle overlay with an empty path, a
    pointer-down at [p0], moves through [pts] and a pointer-up paint a dot
    at [p0] and then one segment per move, each from the previous
    position to the new one, in order, all in the pen colour and width of
    the settings; afterwards the overlay is idle and the path empty. *)
Theorem stroke_is_a_polyline (st : Plugin) (p0 : Point) (pts : list Point) :
  path (ctx st) = [] →
  let st' := exec (run (mousedown p0 :: (mousemove <$> pts) ++ [mouseup])) st in
  painted (canvas st')
  = painted (canvas st) ++ stroke_of st [[p0]] :: polyline st p0 pts
  ∧ isDrawing st' = false
  ∧ path (ctx st') = [].
Proof.
  intros Hempty st'. subst st'.
  rewrite run_cons, run_app, run_cons, run_nil. cbn [handle].
  set (down := exec (startDrawing p0) st).
  assert (down = exec (draw p0) (set_isDrawing true st)) as Hdown by reflexivity.
  rewrite draw_active in Hdown by reflexivity.
  destruct (moves_paint_polyline pts down p0) as [Hpainted _];
    [by rewrite Hdown | by rewrite Hdown |].
  split; [|by split].
  change (painted (canvas (exec stopDrawing ?s))) with (painted (canvas s)).
  rewrite Hpainted, Hdown.
  cbn [canvas painted paint ctx path settings set_isDrawing].
  rewrite Hempty. cbn [add_point]. rewrite <- app_assoc. cbn [app].
  f_equal. unfold stroke_of at 1. cbn [settings ctx set_isDrawing].
  fold (stroke_of st [[p0]]). f_equal. by apply polyline_same_style.
Qed.

(** ** The further properties at concrete inputs *)

Lemma strokes_never_accumulate_witness :
  path_reset (exec (run [mousedown (1, 1); mousemove (2, 2); mousemove (3, 1);
                         mouseup]) mounted_overlay) = true
  ∧ ∃ new,
      painted (canvas (exec (run [mousedown (1, 1); mousemove (2, 2);
                                  mousemove (3, 1); mouseup]) mounted_overlay))
      = painted (canvas mounted_overlay) ++ new
      ∧ forallb single_segment new = true.
Proof.
  exact (strokes_never_accumulate
           [mousedown (1, 1); mousemove (2, 2); mousemove (3, 1); mouseup]
           mounted_overlay eq_refl).
Defined.

Lemma idle_moves_paint_nothing_witness :
  canvas (exec (run [mousemove (1, 1); colorPicker_change "#ff0000";
                     mousemove (2, 2); mouseup]) mounted_overlay)
  = canvas mounted_overlay.
Proof.
  exact (proj1 (idle_moves_paint_nothing
                  [mousemove (1, 1); colorPicker_change "#ff0000";
                   mousemove (2, 2); mouseup]
                  mounted_overlay eq_refl eq_refl)).
Defined.

Lemma overlay_events_write_two_settings_witness :
  settings (exec (run [colorPicker_change "#ff0000"; penWidthSlider_input "7";
                       mousedown (1, 1); mouseup]) mounted_overlay)
  !! "eraserSize" = Some (VNum 10).
Proof.
  rewrite (overlay_events_write_two_settings
             [colorPicker_change "#ff0000"; penWidthSlider_input "7";
              mousedown (1, 1); mouseup]
             mounted_overlay "eraserSize"); [reflexivity | discriminate..].
Defined.

Lemma tool_holds_until_next_button_witness :
  ∃ new,
    painted (canvas (exec (run [eraserButton_click; mousedown (1, 1);
                                mousemove (2, 2); mouseup;
                                colorPicker_change "#ff0000";
                                mousedown (5, 5); mouseup]) mounted_overlay))
    = painted (canvas mounted_overlay) ++ new
    ∧ forallb (composited_with "destination-out") new = true.
Proof.
  exact (proj1 (tool_holds_until_next_button
                  [mousedown (1, 1); mousemove (2, 2); mouseup;
                   colorPicker_change "#ff0000"; mousedown (5, 5); mouseup]
                  mounted_overlay eq_refl)).
Defined.

Lemma saved_drawing_is_restored_witness :
  let saved := exec (saveDrawing (runtime_with true) 1000 None) mounted_overlay in
  let activated := exec (initializeDrawingCanvas 1024 768 None) saved in
  painted (canvas (exec (handle img_onload) activated))
  = [ClearRect 0 0 1024 768;
     DrawImage (VStr "data:image/png;base64,AAAA") 0 0].
Proof.
  refine (proj1 (proj2 (saved_drawing_is_restored (runtime_with true)
                          mounted_overlay 1000 1024 768 _ eq_refl))).
  discriminate.
Defined.

Lemma late_image_clears_the_strokes_witness :
  let st := new_plugin (host_storing (Some {[ "drawing" := VStr "data:x" ]})) in
  let drawn := exec (run [mousedown (1, 1); mouseup])
                    (exec (initializeDrawingCanvas 1024 768 None) st) in
  painted (canvas (exec (handle img_onload) drawn))
  = painted (canvas drawn)
    ++ [ClearRect 0 0 1024 768; DrawImage (VStr "data:x") 0 0].
Proof.
  intros st.
  exact (late_image_clears_the_strokes st {[ "drawing" := VStr "data:x" ]}
           1024 768 [mousedown (1, 1); mouseup]
           eq_refl eq_refl eq_refl eq_refl).
Defined.

Lemma loadDrawing_tests_truthiness_witness :
  let st := new_plugin (host_storing (Some {[ "drawing" := VStr "" ]})) in
  exec (loadDrawing None) st = st.
Proof.
  intros st.
  refine (proj1 (loadDrawing_tests_truthiness st {[ "drawing" := VStr "" ]}
                   (VStr "") eq_refl eq_refl) _).
  unfold falsy_values. do 5 apply list_elem_of_further. apply list_elem_of_here.
Defined.

Lemma panel_changes_survive_restart_witness :
  settings (exec (loadSettings None)
              (restart (exec (penWidth_onChange 7 None) mounted_overlay)))
  !! "penWidth" = Some (VNum 7)
  ∧ settings (exec (loadSettings None)
                (restart (exec (penWidth_onChange 7 None) mounted_overlay)))
    !! "eraserSize" = Some (VNum 10).
Proof.
  destruct (panel_changes_survive_restart mounted_overlay "#ff0000" 7 false)
    as (_ & (Hwidth & Hothers) & _).
  split; [exact Hwidth|].
  apply Hothers; [discriminate | reflexivity].
Defined.

Lemma loadSettings_keeps_every_stored_key_witness :
  let st := new_plugin (host_storing (Some {[ "drawing" := VStr "data:x" ]})) in
  settings (exec (loadSettings None) st) !! "drawing" = Some (VStr "data:x").
Proof.
  intros st.
  apply (proj2 (loadSettings_keeps_every_stored_key st
                  {[ "drawing" := VStr "data:x" ]} eq_refl)).
  reflexivity.
Defined.

Lemma drawing_survives_a_settings_cycle_witness :
  let cycled := exec (loadSettings None ;; saveSettings None)
                     (restart (exec (saveDrawing (runtime_with true) 1000 None)
                                    mounted_overlay)) in
  settings cycled !! "drawing" = Some (VStr "data:image/png;base64,AAAA")
  ∧ imageLoads (host (exec (loadDrawing None) cycled))
    = [VStr "data:image/png;base64,AAAA"].
Proof.
  intros cycled.
  destruct (drawing_survives_a_settings_cycle (runtime_with true)
              mounted_overlay 1000) as (_ & Hdrawing & _ & Hloads).
  - discriminate.
  - split; [exact Hdrawing | exact Hloads].
Defined.

Lemma stroke_is_a_polyline_witness :
  painted (canvas (exec (run [mousedown (0, 0); mousemove (50, 50);
                              mousemove (100, 0); mouseup]) mounted_overlay))
  = [Stroke [[(0, 0)]] (VStr "#000000") (VNum 2) "round" "round" "source-over";
     Stroke [[(0, 0); (50, 50)]] (VStr "#000000") (VNum 2) "round" "round"
            "source-over";
     Stroke [[(50, 50); (100, 0)]] (VStr "#000000") (VNum 2) "round" "round"
            "source-over"].
Proof.
  exact (proj1 (stroke_is_a_polyline mounted_overlay (0, 0)
                  [(50, 50); (100, 0)] eq_refl)).
Defined.
